(** * Ad Vendor Evaluation Simulator: the health-score pipeline of [app.py]

    A shallow embedding of the computational part of [app.py]: weight
    normalisation (lines 37-38), the joins that build [dyn] (lines 41-47),
    the score formula (lines 49-55), the vendor filter and ranking
    (line 57) and the finance variance table (lines 87-88).

    Numbers.  The program computes on IEEE doubles.  Here a number is an
    exact rational ([Q]); a missing value (pandas' NaN cell) is [None].
    Rounding is therefore abstracted: every statement below is about the
    exact value of the formulas the program evaluates.  Python's
    [ZeroDivisionError] on float division is kept explicit. *)

From Stdlib Require Import List String Bool Arith Lia.
From Stdlib Require Import QArith Qminmax Lqa.
From Stdlib Require Import Permutation Sorted Mergesort Orders.
Import ListNotations.

Local Open Scope Q_scope.

(* ------------------------------------------------------------------ *)
(** ** Faults *)

Inductive exn : Type :=
| ZeroDivisionError.

Inductive result (A : Type) : Type :=
| Ok (a : A)
| Raise (e : exn).

Arguments Ok {A} a.
Arguments Raise {A} e.

Definition bind {A B : Type} (c : result A) (k : A -> result B) : result B :=
  match c with
  | Ok a => k a
  | Raise e => Raise e
  end.

Notation "x <- c ;; k" := (bind c (fun x => k))
  (at level 61, c at next level, right associativity).

Fixpoint mapM {A B : Type} (f : A -> result B) (l : list A) : result (list B) :=
  match l with
  | [] => Ok []
  | a :: l' =>
      b <- f a ;;
      bs <- mapM f l' ;;
      Ok (b :: bs)
  end.

(* ------------------------------------------------------------------ *)
(** ** Numbers and cells *)

(** A cell of a data frame: [None] is NaN (a missing value). *)
Definition cell : Type := option Q.

(** [Series.fillna(0)] on one cell. *)
Definition fillna0 (c : cell) : Q :=
  match c with
  | Some q => q
  | None => 0
  end.

(** Python's [a / b] on floats: division by zero raises. *)
Definition py_div (a b : Q) : result Q :=
  if Qeq_bool b 0 then Raise ZeroDivisionError else Ok (a / b).

(** Python's builtin [sum]: a left fold that starts from 0. *)
Definition py_sum (ws : list Q) : Q := fold_left Qplus ws 0.

(** Arithmetic on cells: NaN propagates. *)
Definition cell_sub (a b : cell) : cell :=
  match a, b with
  | Some x, Some y => Some (x - y)
  | _, _ => None
  end.

(** [Series.clip(lower, upper)]: numpy's [minimum(maximum(x, lower), upper)]. *)
Definition clip (lower upper x : Q) : Q := Qmin upper (Qmax lower x).

(** [Series.mean()] of a column: NaN cells are skipped; the mean of no
    value at all is NaN. *)
Fixpoint dropna (xs : list cell) : list Q :=
  match xs with
  | [] => []
  | Some q :: xs' => q :: dropna xs'
  | None :: xs' => dropna xs'
  end.

Definition mean (xs : list cell) : cell :=
  match dropna xs with
  | [] => None
  | q :: vs => Some (py_sum (q :: vs) / inject_Z (Z.of_nat (List.length (q :: vs))))
  end.

(* ------------------------------------------------------------------ *)
(** ** The five row-sets returned by [load_csvs] *)

Record HealthRecord : Type := {
  h_VENDOR_ID : string
}.

Record DeliveryRecord : Type := {
  d_VENDOR_ID : string;
  d_DT : string;
  d_CPM : cell;
  d_VIEWABILITY : cell;
  d_CTR : cell
}.

Record FinanceRecord : Type := {
  f_MONTH : string;
  f_VENDOR_ID : string;
  f_INVOICED_USD : cell;
  f_DISPUTE_RATE : cell
}.

Record IdentityRecord : Type := {
  i_VENDOR_ID : string;
  i_MATCH_RATE : cell;
  i_OVERLAP : cell;
  i_AVG_LATENCY_HOURS : cell
}.

Record BudgetRecord : Type := {
  b_MONTH : string;
  b_VENDOR_ID : string;
  b_BUDGET_ALLOCATED_USD : cell
}.

(* ------------------------------------------------------------------ *)
(** ** Sidebar weights (lines 31-38) *)

(** [weights = [w/sum(weights) for w in weights]] *)
Definition normalize (weights : list Q) : result (list Q) :=
  mapM (fun w => py_div w (py_sum weights)) weights.

(** The slider defaults: 0.30, 0.15, 0.25, 0.20, 0.10. *)
Definition default_weights : list Q :=
  [0.30; 0.15; 0.25; 0.20; 0.10].

(* ------------------------------------------------------------------ *)
(** ** Data-frame operations used by the pipeline *)

(** [left.merge(right, on=key, how="left")]: every left row is kept, in
    order; it is paired with each right row of the same key, in the right
    frame's order, or with nothing when no right row has its key. *)
Definition merge_left {A B : Type} (key_l : A -> string) (key_r : B -> string)
    (left : list A) (right : list B) : list (A * option B) :=
  flat_map
    (fun a =>
       match filter (fun b => String.eqb (key_r b) (key_l a)) right with
       | [] => [(a, None)]
       | b :: bs => map (fun b' => (a, Some b')) (b :: bs)
       end)
    left.

(** [left.merge(right, on=key, how="right")]: the same join with the roles
    of the two frames exchanged; every right row is kept. *)
Definition merge_right {A B : Type} (key_l : A -> string) (key_r : B -> string)
    (left : list A) (right : list B) : list (option A * B) :=
  map (fun p => (snd p, fst p)) (merge_left key_r key_l right left).

(** [frame.groupby("VENDOR_ID", as_index=False)[col].mean()]: one row per
    distinct key, holding the mean of the group's column.  pandas lists
    the groups in sorted key order; the frame is only ever used as the
    right side of a left merge, which depends on the set of rows alone,
    so the groups are listed here in the order [nodup] gives. *)
Definition groupby_mean {A : Type} (key : A -> string) (col : A -> cell)
    (frame : list A) : list (string * cell) :=
  map
    (fun k =>
       (k, mean (map col (filter (fun r => String.eqb (key r) k) frame))))
    (nodup string_dec (map key frame)).

(** The value a merged-in aggregate column holds after [.fillna(0)]:
    0 when the merge found no row, 0 when the group's mean was NaN. *)
Definition merged_value (m : option (string * cell)) : Q :=
  match m with
  | Some (_, c) => fillna0 c
  | None => 0
  end.

(** [dyn.merge(agg, on="VENDOR_ID", how="left").fillna(0)] for a
    one-column aggregate [agg]. *)
Definition merge_fill {A : Type} (key : A -> string) (dyn : list A)
    (agg : list (string * cell)) : list (A * Q) :=
  map (fun p => (fst p, merged_value (snd p))) (merge_left key fst dyn agg).

(* ------------------------------------------------------------------ *)
(** ** Recompute Health (lines 41-47) *)

(** A row of [dyn] after line 41. *)
Record IdentityRow : Type := {
  ir_VENDOR_ID : string;
  ir_MATCH_RATE : Q;
  ir_OVERLAP : Q;
  ir_AVG_LATENCY_HOURS : Q
}.

(** A row of [dyn] after line 47. *)
Record DynRow : Type := {
  VENDOR_ID : string;
  MATCH_RATE : Q;
  OVERLAP : Q;
  AVG_LATENCY_HOURS : Q;
  DISPUTE_RATE : Q;
  CPM : Q;
  VIEWABILITY : Q
}.

(** [.fillna(0)] on a row of the right join of line 41. *)
Definition fill_identity (p : option IdentityRecord * HealthRecord) : IdentityRow :=
  match p with
  | (Some i, h) =>
      {| ir_VENDOR_ID := h_VENDOR_ID h;
         ir_MATCH_RATE := fillna0 (i_MATCH_RATE i);
         ir_OVERLAP := fillna0 (i_OVERLAP i);
         ir_AVG_LATENCY_HOURS := fillna0 (i_AVG_LATENCY_HOURS i) |}
  | (None, h) =>
      {| ir_VENDOR_ID := h_VENDOR_ID h;
         ir_MATCH_RATE := 0;
         ir_OVERLAP := 0;
         ir_AVG_LATENCY_HOURS := 0 |}
  end.

(** Line 41. *)
Definition dyn1 (health : list HealthRecord) (identity : list IdentityRecord)
    : list IdentityRow :=
  map fill_identity (merge_right i_VENDOR_ID h_VENDOR_ID identity health).

(** Lines 42-43. *)
Definition dyn2 (health : list HealthRecord) (identity : list IdentityRecord)
    (finance : list FinanceRecord) : list (IdentityRow * Q) :=
  merge_fill ir_VENDOR_ID (dyn1 health identity)
    (groupby_mean f_VENDOR_ID f_DISPUTE_RATE finance).

(** Lines 44-45. *)
Definition dyn3 (health : list HealthRecord) (identity : list IdentityRecord)
    (finance : list FinanceRecord) (delivery : list DeliveryRecord)
    : list (IdentityRow * Q * Q) :=
  merge_fill (fun r => ir_VENDOR_ID (fst r)) (dyn2 health identity finance)
    (groupby_mean d_VENDOR_ID d_CPM delivery).

(** Lines 46-47. *)
Definition dyn4 (health : list HealthRecord) (identity : list IdentityRecord)
    (finance : list FinanceRecord) (delivery : list DeliveryRecord)
    : list (IdentityRow * Q * Q * Q) :=
  merge_fill (fun r => ir_VENDOR_ID (fst (fst r)))
    (dyn3 health identity finance delivery)
    (groupby_mean d_VENDOR_ID d_VIEWABILITY delivery).

Definition to_DynRow (r : IdentityRow * Q * Q * Q) : DynRow :=
  match r with
  | (i, dispute, cpm, view) =>
      {| VENDOR_ID := ir_VENDOR_ID i;
         MATCH_RATE := ir_MATCH_RATE i;
         OVERLAP := ir_OVERLAP i;
         AVG_LATENCY_HOURS := ir_AVG_LATENCY_HOURS i;
         DISPUTE_RATE := dispute;
         CPM := cpm;
         VIEWABILITY := view |}
  end.

(** The frame [dyn] as it stands before the score column is added. *)
Definition dyn (health : list HealthRecord) (identity : list IdentityRecord)
    (finance : list FinanceRecord) (delivery : list DeliveryRecord)
    : list DynRow :=
  map to_DynRow (dyn4 health identity finance delivery).

(* ------------------------------------------------------------------ *)
(** ** The score column (lines 49-55) *)

(** [1 - (dyn["CPM"]/15)] *)
Definition cpm_term (cpm : Q) : Q := 1 - cpm / 15.

(** [(dyn["VIEWABILITY"] - 0.5)/0.5] *)
Definition view_term (viewability : Q) : Q := (viewability - 0.5) / 0.5.

(** [1 - dyn["DISPUTE_RATE"]] *)
Definition dispute_term (dispute_rate : Q) : Q := 1 - dispute_rate.

(** [weights[k]]; the list always has five entries here, see
    [normalize_length]. *)
Definition weight (weights : list Q) (k : nat) : Q := nth k weights 0.

(** The sum inside the parentheses of line 49-55, before [.clip]. *)
Definition weighted_sum (weights : list Q) (r : DynRow) : Q :=
  weight weights 0 * MATCH_RATE r +
  weight weights 1 * OVERLAP r +
  weight weights 2 * cpm_term (CPM r) +
  weight weights 3 * view_term (VIEWABILITY r) +
  weight weights 4 * dispute_term (DISPUTE_RATE r).

(** [( ... ).clip(0,1)*100] *)
Definition health_score (weights : list Q) (r : DynRow) : Q :=
  clip 0 1 (weighted_sum weights r) * 100.

(** A row of [dyn] once [HEALTH_SCORE_DYNAMIC] has been assigned. *)
Record ScoredRow : Type := {
  vendor : DynRow;
  HEALTH_SCORE_DYNAMIC : Q
}.

Definition add_score (weights : list Q) (r : DynRow) : ScoredRow :=
  {| vendor := r; HEALTH_SCORE_DYNAMIC := health_score weights r |}.

(* ------------------------------------------------------------------ *)
(** ** Filter and ranking (line 57) *)

(** [dyn["VENDOR_ID"].isin(sel_vendors)] on one row. *)
Definition isin (sel_vendors : list string) (r : ScoredRow) : bool :=
  existsb (String.eqb (VENDOR_ID (vendor r))) sel_vendors.

(** The order [sort_values(..., ascending=False)] arranges rows in. *)
Definition score_ge (a b : ScoredRow) : Prop :=
  HEALTH_SCORE_DYNAMIC b <= HEALTH_SCORE_DYNAMIC a.

(** [DataFrame.sort_values("HEALTH_SCORE_DYNAMIC", ascending=False)] is a
    pandas call made with the default [kind] (quicksort).  Its code is not
    part of the program; what the program relies on is what pandas
    documents for it: the rows come back rearranged, highest score first.
    Nothing is documented about the order of rows of equal score for this
    [kind], so the interface says nothing about it either. *)
Class SortValues : Type := {
  sort_values : list ScoredRow -> list ScoredRow;
  sort_values_perm : forall rows, Permutation rows (sort_values rows);
  sort_values_desc : forall rows, Sorted score_ge (sort_values rows)
}.

(** Line 57. *)
Definition rank `{SortValues} (sel_vendors : list string) (rows : list ScoredRow)
    : list ScoredRow :=
  sort_values (filter (isin sel_vendors) rows).

(** Lines 37-57: the ranked table for the given row-sets, selection and
    slider values, or the fault raised on the way. *)
Definition ranking `{SortValues}
    (health : list HealthRecord) (identity : list IdentityRecord)
    (finance : list FinanceRecord) (delivery : list DeliveryRecord)
    (sel_vendors : list string)
    (w_match w_overlap w_cpm w_view w_disputes : Q)
    : result (list ScoredRow) :=
  weights <- normalize [w_match; w_overlap; w_cpm; w_view; w_disputes] ;;
  Ok (rank sel_vendors (map (add_score weights) (dyn health identity finance delivery))).

(* ------------------------------------------------------------------ *)
(** ** Budget vs invoiced variance (lines 87-88) *)

Record FinanceSummaryRow : Type := {
  fs_MONTH : string;
  fs_VENDOR_ID : string;
  fs_BUDGET_ALLOCATED_USD : cell;
  fs_INVOICED_USD : cell;
  fs_VARIANCE_USD : cell;
  fs_DISPUTE_RATE : cell
}.

(** The two-column key of [on=["MONTH","VENDOR_ID"]]. *)
Definition same_key (f : FinanceRecord) (b : BudgetRecord) : bool :=
  String.eqb (b_MONTH b) (f_MONTH f) && String.eqb (b_VENDOR_ID b) (f_VENDOR_ID f).

(** [finance.merge(budgets, on=["MONTH","VENDOR_ID"], how="left")]: the
    budget cell of a finance row with no budget row is NaN; no [fillna]
    follows this merge. *)
Definition merge_budgets (finance : list FinanceRecord) (budgets : list BudgetRecord)
    : list (FinanceRecord * cell) :=
  flat_map
    (fun f =>
       match filter (same_key f) budgets with
       | [] => [(f, None)]
       | b :: bs => map (fun b' => (f, b_BUDGET_ALLOCATED_USD b')) (b :: bs)
       end)
    finance.

(** Line 88 on one merged row. *)
Definition variance_row (p : FinanceRecord * cell) : FinanceSummaryRow :=
  {| fs_MONTH := f_MONTH (fst p);
     fs_VENDOR_ID := f_VENDOR_ID (fst p);
     fs_BUDGET_ALLOCATED_USD := snd p;
     fs_INVOICED_USD := f_INVOICED_USD (fst p);
     fs_VARIANCE_USD := cell_sub (f_INVOICED_USD (fst p)) (snd p);
     fs_DISPUTE_RATE := f_DISPUTE_RATE (fst p) |}.

Definition finance_summary (finance : list FinanceRecord) (budgets : list BudgetRecord)
    : list FinanceSummaryRow :=
  map variance_row (merge_budgets finance budgets).

(* ------------------------------------------------------------------ *)
(** ** Two sorts that meet the [sort_values] interface *)

Module ScoreOrder <: TotalLeBool.
Definition t : Type := ScoredRow.
Definition leb (a b : t) : bool :=
  Qle_bool (HEALTH_SCORE_DYNAMIC b) (HEALTH_SCORE_DYNAMIC a).
Lemma leb_total : forall a b, leb a b = true \/ leb b a = true.
Proof.
  intros a b. unfold leb. rewrite !Qle_bool_iff.
  destruct (Qlt_le_dec (HEALTH_SCORE_DYNAMIC a) (HEALTH_SCORE_DYNAMIC b)) as [Hlt | Hle].
  - right. apply Qlt_le_weak. exact Hlt.
  - left. exact Hle.
Qed.
End ScoreOrder.

Module ScoreSort := Sort ScoreOrder.

Lemma leb_score_ge (a b : ScoredRow) : ScoreOrder.leb a b = true <-> score_ge a b.
Proof. unfold ScoreOrder.leb, score_ge. apply Qle_bool_iff. Qed.

Lemma Sorted_leb_score_ge (l : list ScoredRow) :
  Sorted (fun a b => is_true (ScoreOrder.leb a b)) l -> Sorted score_ge l.
Proof.
  induction 1 as [| a l Hs IH Hd]; constructor; auto.
  destruct Hd as [| b l Hab]; constructor.
  apply leb_score_ge. exact Hab.
Qed.

(** Merge sort on descending score. *)
#[export] Instance merge_sort_values : SortValues.
Proof.
  refine {| sort_values := ScoreSort.sort |}.
  - exact ScoreSort.Permuted_sort.
  - intro rows. apply Sorted_leb_score_ge. apply ScoreSort.Sorted_sort.
Defined.

(** The same sort run on the reversed frame; see
    [tie_order_depends_on_the_sort] for what it does to rows of equal
    score. *)
Definition reversing_sort_values : SortValues.
Proof.
  refine {| sort_values := fun rows => ScoreSort.sort (rev rows) |}.
  - intro rows. eapply Permutation_trans.
    + apply Permutation_rev.
    + apply ScoreSort.Permuted_sort.
  - intro rows. apply Sorted_leb_score_ge. apply ScoreSort.Sorted_sort.
Defined.

(* ------------------------------------------------------------------ *)
(** ** Sample inputs *)

(** The vendor of the worked example. *)
Definition example_vendor : DynRow :=
  {| VENDOR_ID := "V1"; MATCH_RATE := 0.8; OVERLAP := 0.5;
     AVG_LATENCY_HOURS := 0; DISPUTE_RATE := 0.05; CPM := 10;
     VIEWABILITY := 0.7 |}.

(** A Health universe of one vendor and no other data at all. *)
Definition lone_health : list HealthRecord := [{| h_VENDOR_ID := "V1" |}].

(** Sample row-sets: two Health vendors, a third vendor known to Identity
    only, delivery data for one vendor, finance data for the other. *)
Definition sample_health : list HealthRecord :=
  [{| h_VENDOR_ID := "A" |}; {| h_VENDOR_ID := "B" |}].

Definition sample_identity : list IdentityRecord :=
  [{| i_VENDOR_ID := "A"; i_MATCH_RATE := Some 0.8; i_OVERLAP := Some 0.5;
      i_AVG_LATENCY_HOURS := Some 2 |};
   {| i_VENDOR_ID := "C"; i_MATCH_RATE := Some 0.9; i_OVERLAP := Some 0.9;
      i_AVG_LATENCY_HOURS := Some 1 |}].

Definition sample_finance : list FinanceRecord :=
  [{| f_MONTH := "2024-01"; f_VENDOR_ID := "B"; f_INVOICED_USD := Some 1200;
      f_DISPUTE_RATE := Some 0.05 |}].

Definition sample_delivery : list DeliveryRecord :=
  [{| d_VENDOR_ID := "A"; d_DT := "2024-01-01"; d_CPM := Some 10;
      d_VIEWABILITY := Some 0.7; d_CTR := Some 0.01 |};
   {| d_VENDOR_ID := "A"; d_DT := "2024-01-02"; d_CPM := Some 12;
      d_VIEWABILITY := None; d_CTR := Some 0.02 |}].

(* ------------------------------------------------------------------ *)
(** ** Sidebar vendor list (lines 27-28) *)

(** [Series.unique()]: the distinct values, each at the place of its
    first occurrence. *)
Fixpoint unique (l : list string) : list string :=
  match l with
  | [] => []
  | x :: l' => x :: filter (fun y => negb (String.eqb x y)) (unique l')
  end.

(** [vendors_all = health["VENDOR_ID"].unique().tolist()]; it is both the
    option list and the default of the multiselect. *)
Definition vendors_all (health : list HealthRecord) : list string :=
  unique (map h_VENDOR_ID health).

(* ------------------------------------------------------------------ *)
(** ** KPIs (lines 60-63) *)

(** The values handed to the three metric cards, before the [:.1f]
    formatting of the two scores; [None] stands for the dash shown when
    [dyn.empty]. *)

(** [dyn.iloc[0]["VENDOR_ID"] if not dyn.empty else dash] *)
Definition kpi_top_vendor (ranked : list ScoredRow) : option string :=
  match ranked with
  | [] => None
  | r :: _ => Some (VENDOR_ID (vendor r))
  end.

(** [dyn['HEALTH_SCORE_DYNAMIC'].max() if not dyn.empty else dash] *)
Definition kpi_top_score (ranked : list ScoredRow) : option Q :=
  match ranked with
  | [] => None
  | r :: rs =>
      Some (fold_left Qmax (map HEALTH_SCORE_DYNAMIC rs) (HEALTH_SCORE_DYNAMIC r))
  end.

(** [dyn['HEALTH_SCORE_DYNAMIC'].mean() if not dyn.empty else dash] *)
Definition kpi_avg_score (ranked : list ScoredRow) : option Q :=
  match ranked with
  | [] => None
  | _ :: _ => mean (map (fun r => Some (HEALTH_SCORE_DYNAMIC r)) ranked)
  end.

(* ------------------------------------------------------------------ *)
(** ** The same arithmetic on doubles *)

From Stdlib Require PrimFloat FloatOps.

#[local] Set Warnings "-inexact-float".

(** Lines 37-38 and 49-57 read on binary64 values, as Python and numpy
    compute them: quotients and sums are rounded, a cell can hold an
    infinity and the score can be NaN.  The definitions above are the
    exact-arithmetic reading of the same lines; this module is used where
    the two readings differ. *)
Module F64.

Local Open Scope float_scope.
Import PrimFloat.

(** Python's [a / b] on floats. *)
Definition py_div (a b : float) : result float :=
  if b =? 0 then Raise ZeroDivisionError else Ok (a / b).

(** Python's builtin [sum] as a plain left fold from 0. *)
Definition py_sum (ws : list float) : float := fold_left add ws 0.

(** [weights = [w/sum(weights) for w in weights]] *)
Definition normalize (weights : list float) : result (list float) :=
  mapM (fun w => py_div w (py_sum weights)) weights.

(** The five columns of a row of [dyn] that the score reads. *)
Record Metrics : Type := {
  match_rate : float;
  overlap : float;
  cpm : float;
  viewability : float;
  dispute_rate : float
}.

Definition weighted_sum (weights : list float) (m : Metrics) : float :=
  nth 0 weights 0 * match_rate m +
  nth 1 weights 0 * overlap m +
  nth 2 weights 0 * (1 - cpm m / 15) +
  nth 3 weights 0 * ((viewability m - 0.5) / 0.5) +
  nth 4 weights 0 * (1 - dispute_rate m).

(** [Series.clip(lower, upper)]: a NaN stays NaN, a value below [lower]
    becomes [lower], a value above [upper] becomes [upper]. *)
Definition clip (lower upper x : float) : float :=
  if is_nan x then x
  else
    let y := if lower <=? x then x else lower in
    if y <=? upper then y else upper.

Definition health_score (weights : list float) (m : Metrics) : float :=
  clip 0 1 (weighted_sum weights m) * 100.

(** A row of the scored frame: vendor id and [HEALTH_SCORE_DYNAMIC]. *)
Definition Scored : Type := (string * float)%type.

(** Insertion in descending score order, used to sort the rows whose
    score is a number. *)
Fixpoint insert_desc (r : Scored) (l : list Scored) : list Scored :=
  match l with
  | [] => [r]
  | x :: l' => if snd r <=? snd x then x :: insert_desc r l' else r :: x :: l'
  end.

Definition sort_desc (l : list Scored) : list Scored :=
  fold_right insert_desc [] l.

(** [sort_values(..., ascending=False)] with the default
    [na_position="last"]: the rows with a numeric score are sorted, the
    rows with a NaN score follow them in their original order. *)
Definition sort_values (rows : list Scored) : list Scored :=
  sort_desc (filter (fun r => negb (is_nan (snd r))) rows)
  ++ filter (fun r => is_nan (snd r)) rows.

(** Lines 37-57 on a joined frame given as (vendor id, metrics) rows. *)
Definition ranking (dyn : list (string * Metrics)) (sel_vendors : list string)
    (w_match w_overlap w_cpm w_view w_disputes : float) : result (list Scored) :=
  weights <- normalize [w_match; w_overlap; w_cpm; w_view; w_disputes] ;;
  Ok (sort_values
        (filter (fun r => existsb (String.eqb (fst r)) sel_vendors)
           (map (fun r => (fst r, health_score weights (snd r))) dyn))).



End F64.

(* ------------------------------------------------------------------ *)
(** * Properties *)

(** ** Weight normalisation *)

Lemma mapM_Ok {A B : Type} (f : A -> result B) (g : A -> B) (l : list A) :
  (forall a, In a l -> f a = Ok (g a)) -> mapM f l = Ok (map g l).
Proof.
  induction l as [| a l IH]; intro Hf; simpl.
  - reflexivity.
  - rewrite (Hf a (or_introl eq_refl)). simpl.
    rewrite IH by (intros b Hb; apply Hf; right; exact Hb).
    reflexivity.
Qed.

Lemma py_div_nonzero (a b : Q) : ~ b == 0 -> py_div a b = Ok (a / b).
Proof.
  intro Hb. unfold py_div.
  destruct (Qeq_bool b 0) eqn:E.
  - apply Qeq_bool_iff in E. contradiction.
  - reflexivity.
Qed.

Lemma py_div_zero (a b : Q) : b == 0 -> py_div a b = Raise ZeroDivisionError.
Proof.
  intro Hb. unfold py_div. apply Qeq_bool_iff in Hb. rewrite Hb. reflexivity.
Qed.

Lemma normalize_nonzero (weights : list Q) :
  ~ py_sum weights == 0 ->
  normalize weights = Ok (map (fun w => w / py_sum weights) weights).
Proof.
  intro Hs. unfold normalize. apply mapM_Ok.
  intros w _. apply py_div_nonzero. exact Hs.
Qed.

Lemma normalize_length (weights ws : list Q) :
  normalize weights = Ok ws -> List.length ws = List.length weights.
Proof.
  unfold normalize. generalize (py_sum weights) as s. intro s.
  revert ws. induction weights as [| w l IH]; intros ws H; simpl in H.
  - inversion H. reflexivity.
  - destruct (py_div w s) as [q | e]; simpl in H; [| discriminate].
    destruct (mapM (fun w0 => py_div w0 s) l) as [qs | e]; simpl in H; [| discriminate].
    inversion H; subst. simpl. f_equal. apply IH. reflexivity.
Qed.

Lemma fold_left_Qplus_acc (l : list Q) (a : Q) :
  fold_left Qplus l a == a + fold_left Qplus l 0.
Proof.
  revert a. induction l as [| x l IH]; intro a; simpl.
  - lra.
  - rewrite (IH (a + x)), (IH (0 + x)). lra.
Qed.

Lemma py_sum_cons (x : Q) (l : list Q) : py_sum (x :: l) == x + py_sum l.
Proof.
  unfold py_sum. simpl. rewrite fold_left_Qplus_acc. lra.
Qed.

Lemma py_sum_scaled (s : Q) (l : list Q) :
  py_sum (map (fun w => w / s) l) == py_sum l / s.
Proof.
  induction l as [| x l IH].
  - unfold py_sum. simpl. unfold Qdiv. lra.
  - simpl map. rewrite !py_sum_cons, IH. unfold Qdiv. lra.
Qed.

Lemma normalize_sums_to_one (weights : list Q) :
  ~ py_sum weights == 0 ->
  exists ws, normalize weights = Ok ws /\ py_sum ws == 1.
Proof.
  intro Hs. exists (map (fun w => w / py_sum weights) weights). split.
  - apply normalize_nonzero. exact Hs.
  - rewrite py_sum_scaled. field. exact Hs.
Qed.



(** C1 (the program's behaviour at the input of the claim). With all five
    sliders at 0 the division of line 38 raises [ZeroDivisionError]:
    normalisation returns no weights, and no ranking, hence no score, is
    produced, whatever the row-sets and the selection are. *)
Theorem all_zero_weights_raise `{SortValues}
    (health : list HealthRecord) (identity : list IdentityRecord)
    (finance : list FinanceRecord) (delivery : list DeliveryRecord)
    (sel_vendors : list string) :
  normalize [0; 0; 0; 0; 0] = Raise ZeroDivisionError /\
  ranking health identity finance delivery sel_vendors 0 0 0 0 0
    = Raise ZeroDivisionError.
Proof.
  split; reflexivity.
Qed.

(** ** The score formula *)



(** The clipping is not per term: a viewability of 0 contributes its full
    penalty of -1 and cancels a perfect match rate. *)
Example negative_term_counts_in_full :
  let r := {| VENDOR_ID := "V"; MATCH_RATE := 1; OVERLAP := 0;
              AVG_LATENCY_HOURS := 0; DISPUTE_RATE := 0; CPM := 0;
              VIEWABILITY := 0 |} in
  weighted_sum [1 # 2; 0; 0; 1 # 2; 0] r == 0 /\
  health_score [1 # 2; 0; 0; 1 # 2; 0] r == 0.
Proof. split; reflexivity. Qed.


(** The same vendor pushed through the whole pipeline from its rows. *)
Example example_ranking :
  let health := [{| h_VENDOR_ID := "V1" |}] in
  let identity := [{| i_VENDOR_ID := "V1"; i_MATCH_RATE := Some 0.8;
                      i_OVERLAP := Some 0.5; i_AVG_LATENCY_HOURS := Some 2 |}] in
  let finance := [{| f_MONTH := "2024-01"; f_VENDOR_ID := "V1";
                     f_INVOICED_USD := Some 1200; f_DISPUTE_RATE := Some 0.05 |}] in
  let delivery := [{| d_VENDOR_ID := "V1"; d_DT := "2024-01-01"; d_CPM := Some 10;
                      d_VIEWABILITY := Some 0.7; d_CTR := Some 0.01 |}] in
  exists row,
    ranking health identity finance delivery ["V1"%string] 0.30 0.15 0.25 0.20 0.10
      = Ok [row] /\
    VENDOR_ID (vendor row) = "V1"%string /\
    HEALTH_SCORE_DYNAMIC row == 172 # 3.
Proof.
  vm_compute. eexists. split; [reflexivity |]. split; reflexivity.
Qed.

(** ** Joins *)

Section MergeLeft.
Context {A B : Type} (key_l : A -> string) (key_r : B -> string).

Lemma merge_left_fst (l : list A) (r : list B) (p : A * option B) :
  In p (merge_left key_l key_r l r) -> In (fst p) l.
Proof.
  unfold merge_left. rewrite in_flat_map. intros [a [Ha Hp]].
  destruct (filter _ r) as [| b bs].
  - destruct Hp as [<- | []]. exact Ha.
  - apply in_map_iff in Hp. destruct Hp as [b' [<- _]]. exact Ha.
Qed.

Lemma merge_left_keeps (l : list A) (r : list B) (a : A) :
  In a l -> exists ob, In (a, ob) (merge_left key_l key_r l r).
Proof.
  intro Ha. unfold merge_left.
  destruct (filter (fun b => String.eqb (key_r b) (key_l a)) r) as [| b bs] eqn:E.
  - exists None. apply in_flat_map. exists a. split; [exact Ha |].
    rewrite E. left. reflexivity.
  - exists (Some b). apply in_flat_map. exists a. split; [exact Ha |].
    rewrite E. apply in_map_iff. exists b. split; [reflexivity | left; reflexivity].
Qed.

Lemma merge_left_matched (l : list A) (r : list B) (a : A) (b : B) :
  In (a, Some b) (merge_left key_l key_r l r) -> In b r /\ key_r b = key_l a.
Proof.
  unfold merge_left. rewrite in_flat_map. intros [a' [_ Hp]].
  destruct (filter (fun b0 => String.eqb (key_r b0) (key_l a')) r) as [| b0 bs] eqn:E.
  - destruct Hp as [Hp | []]. discriminate.
  - apply in_map_iff in Hp. destruct Hp as [b' [Heq Hb']].
    inversion Heq; subst. rewrite <- E in Hb'.
    apply filter_In in Hb'. destruct Hb' as [Hin Hk].
    apply String.eqb_eq in Hk. split; assumption.
Qed.
End MergeLeft.

Lemma groupby_mean_keys {A : Type} (key : A -> string) (col : A -> cell)
    (frame : list A) (k : string) :
  In k (map fst (groupby_mean key col frame)) <-> In k (map key frame).
Proof.
  unfold groupby_mean. rewrite map_map. simpl. rewrite map_id.
  apply nodup_In.
Qed.

Section MergeFill.
Context {A : Type} (key : A -> string).

Lemma merge_fill_fst (l : list A) (agg : list (string * cell)) (p : A * Q) :
  In p (merge_fill key l agg) -> In (fst p) l.
Proof.
  unfold merge_fill. rewrite in_map_iff. intros [q [<- Hq]]. simpl.
  eapply merge_left_fst. exact Hq.
Qed.

Lemma merge_fill_keeps (l : list A) (agg : list (string * cell)) (a : A) :
  In a l -> exists q, In (a, q) (merge_fill key l agg).
Proof.
  intro Ha.
  destruct (merge_left_keeps key fst l agg a Ha) as [ob Hob].
  exists (merged_value ob). unfold merge_fill. apply in_map_iff.
  exists (a, ob). split; [reflexivity | exact Hob].
Qed.

(** A row whose key has no aggregate row gets 0 in the merged column. *)
Lemma merge_fill_unmatched (l : list A) (agg : list (string * cell)) (a : A) (q : Q) :
  In (a, q) (merge_fill key l agg) ->
  ~ In (key a) (map fst agg) ->
  q = 0.
Proof.
  unfold merge_fill. rewrite in_map_iff. intros [[a' ob] [Heq Hin]] Hno.
  simpl in Heq. inversion Heq; subst. destruct ob as [[k c] |].
  - apply merge_left_matched in Hin. destruct Hin as [Hin Hk]. simpl in Hk.
    exfalso. apply Hno. rewrite <- Hk. apply in_map_iff.
    exists (k, c). split; [reflexivity | exact Hin].
  - reflexivity.
Qed.
End MergeFill.

(** ** The joined frame [dyn] *)

Section Dyn.
Variables (health : list HealthRecord) (identity : list IdentityRecord)
          (finance : list FinanceRecord) (delivery : list DeliveryRecord).

Lemma fill_identity_vendor (p : option IdentityRecord * HealthRecord) :
  ir_VENDOR_ID (fill_identity p) = h_VENDOR_ID (snd p).
Proof. destruct p as [[i |] h]; reflexivity. Qed.

Lemma dyn1_vendor (r : IdentityRow) :
  In r (dyn1 health identity) -> In (ir_VENDOR_ID r) (map h_VENDOR_ID health).
Proof.
  unfold dyn1, merge_right. rewrite map_map, in_map_iff.
  intros [p [<- Hp]]. rewrite fill_identity_vendor. simpl.
  apply in_map. eapply merge_left_fst. exact Hp.
Qed.

Lemma dyn1_keeps (h : HealthRecord) :
  In h health ->
  exists r, In r (dyn1 health identity) /\ ir_VENDOR_ID r = h_VENDOR_ID h.
Proof.
  intro Hh.
  destruct (merge_left_keeps h_VENDOR_ID i_VENDOR_ID health identity h Hh) as [oi Hoi].
  exists (fill_identity (oi, h)). split.
  - unfold dyn1, merge_right. rewrite map_map. apply in_map_iff.
    exists (h, oi). split; [reflexivity | exact Hoi].
  - apply fill_identity_vendor.
Qed.

(** What every row of [dyn] satisfies: its vendor is a Health vendor,
    and a metric whose source frame has no row for the vendor is 0. *)
Lemma dyn_row_inv (r : DynRow) :
  In r (dyn health identity finance delivery) ->
  In (VENDOR_ID r) (map h_VENDOR_ID health) /\
  (~ In (VENDOR_ID r) (map f_VENDOR_ID finance) -> DISPUTE_RATE r = 0) /\
  (~ In (VENDOR_ID r) (map d_VENDOR_ID delivery) -> CPM r = 0) /\
  (~ In (VENDOR_ID r) (map d_VENDOR_ID delivery) -> VIEWABILITY r = 0).
Proof.
  unfold dyn. rewrite in_map_iff.
  intros [[[[i dispute] cpm] view] [<- H4]]. simpl.
  pose proof (merge_fill_fst _ _ _ _ H4) as H3. simpl in H3.
  pose proof (merge_fill_fst _ _ _ _ H3) as H2. simpl in H2.
  pose proof (merge_fill_fst _ _ _ _ H2) as H1. simpl in H1.
  split; [| split; [| split]].
  - apply dyn1_vendor. exact H1.
  - intro Hno. apply (merge_fill_unmatched _ _ _ _ _ H2). simpl.
    rewrite groupby_mean_keys. exact Hno.
  - intro Hno. apply (merge_fill_unmatched _ _ _ _ _ H3). simpl.
    rewrite groupby_mean_keys. exact Hno.
  - intro Hno. apply (merge_fill_unmatched _ _ _ _ _ H4). simpl.
    rewrite groupby_mean_keys. exact Hno.
Qed.

(** Every Health vendor has a row in [dyn]. *)
Lemma dyn_keeps (v : string) :
  In v (map h_VENDOR_ID health) ->
  exists r, In r (dyn health identity finance delivery) /\ VENDOR_ID r = v.
Proof.
  rewrite in_map_iff. intros [h [<- Hh]].
  destruct (dyn1_keeps h Hh) as [i [H1 Hv]].
  destruct (merge_fill_keeps ir_VENDOR_ID (dyn1 health identity)
              (groupby_mean f_VENDOR_ID f_DISPUTE_RATE finance) i H1) as [q2 H2].
  destruct (merge_fill_keeps (fun r => ir_VENDOR_ID (fst r))
              (dyn2 health identity finance)
              (groupby_mean d_VENDOR_ID d_CPM delivery) (i, q2) H2) as [q3 H3].
  destruct (merge_fill_keeps (fun r => ir_VENDOR_ID (fst (fst r)))
              (dyn3 health identity finance delivery)
              (groupby_mean d_VENDOR_ID d_VIEWABILITY delivery) (i, q2, q3) H3)
    as [q4 H4].
  exists (to_DynRow (i, q2, q3, q4)). split.
  - unfold dyn. apply in_map. exact H4.
  - simpl. exact Hv.
Qed.

Lemma dyn_vendor_ids (v : string) :
  In v (map VENDOR_ID (dyn health identity finance delivery)) <->
  In v (map h_VENDOR_ID health).
Proof.
  split.
  - rewrite in_map_iff. intros [r [<- Hr]]. apply dyn_row_inv. exact Hr.
  - intro Hv. destruct (dyn_keeps v Hv) as [r [Hr <-]]. apply in_map. exact Hr.
Qed.
End Dyn.

(** ** Terms of the score at the fill value *)

Lemma cpm_term_le_1 (cpm : Q) : 0 <= cpm -> cpm_term cpm <= 1.
Proof.
  intro H. unfold cpm_term.
  setoid_replace (cpm / 15) with ((1 # 15) * cpm) by field.
  lra.
Qed.

Lemma dispute_term_le_1 (d : Q) : 0 <= d -> dispute_term d <= 1.
Proof. intro H. unfold dispute_term. lra. Qed.

Lemma view_term_ge_m1 (v : Q) : 0 <= v -> -1 <= view_term v.
Proof.
  intro H. unfold view_term.
  setoid_replace ((v - 0.5) / 0.5) with (2 * v - 1) by field.
  lra.
Qed.

(** C8. A Health vendor always has a row in [dyn]; on each of its rows,
    a vendor with no Delivery row has CPM 0 and a CPM term of 1, a vendor
    with no Finance row has dispute rate 0 and a dispute term of 1; and 1
    is the most either term can be for a non-negative metric. *)
Theorem missing_cpm_or_dispute_scores_one
    (health : list HealthRecord) (identity : list IdentityRecord)
    (finance : list FinanceRecord) (delivery : list DeliveryRecord) (v : string) :
  In v (map h_VENDOR_ID health) ->
  (exists r, In r (dyn health identity finance delivery) /\ VENDOR_ID r = v) /\
  (forall r, In r (dyn health identity finance delivery) -> VENDOR_ID r = v ->
     (~ In v (map d_VENDOR_ID delivery) -> CPM r = 0 /\ cpm_term (CPM r) == 1) /\
     (~ In v (map f_VENDOR_ID finance) ->
        DISPUTE_RATE r = 0 /\ dispute_term (DISPUTE_RATE r) == 1)) /\
  (forall cpm, 0 <= cpm -> cpm_term cpm <= 1) /\
  (forall d, 0 <= d -> dispute_term d <= 1).
Proof.
  intro Hv. split; [| split; [| split]].
  - apply dyn_keeps. exact Hv.
  - intros r Hr Hvr. subst v.
    destruct (dyn_row_inv _ _ _ _ r Hr) as [_ [Hd [Hc _]]]. split.
    + intro Hno. rewrite (Hc Hno). split; reflexivity.
    + intro Hno. rewrite (Hd Hno). split; reflexivity.
  - exact cpm_term_le_1.
  - exact dispute_term_le_1.
Qed.

(** C10. On each row of a Health vendor with no Delivery row the
    viewability is 0 and its term is -1, the least the term can be for a
    non-negative viewability, while the CPM term of the same row is 1. *)
Theorem missing_delivery_penalizes_viewability
    (health : list HealthRecord) (identity : list IdentityRecord)
    (finance : list FinanceRecord) (delivery : list DeliveryRecord) (v : string) :
  In v (map h_VENDOR_ID health) ->
  ~ In v (map d_VENDOR_ID delivery) ->
  (exists r, In r (dyn health identity finance delivery) /\ VENDOR_ID r = v) /\
  (forall r, In r (dyn health identity finance delivery) -> VENDOR_ID r = v ->
     VIEWABILITY r = 0 /\
     view_term (VIEWABILITY r) == -1 /\
     view_term (VIEWABILITY r) == (0 - 0.5) / 0.5 /\
     cpm_term (CPM r) == 1) /\
  (forall viewability, 0 <= viewability -> -1 <= view_term viewability).
Proof.
  intros Hv Hno. split; [| split].
  - apply dyn_keeps. exact Hv.
  - intros r Hr Hvr. subst v.
    destruct (dyn_row_inv _ _ _ _ r Hr) as [_ [_ [Hc Hw]]].
    rewrite (Hw Hno), (Hc Hno). repeat split; reflexivity.
  - exact view_term_ge_m1.
Qed.

Lemma missing_cpm_or_dispute_scores_one_witness :
  In "V1"%string (map h_VENDOR_ID lone_health) /\
  (exists r, In r (dyn lone_health [] [] []) /\ VENDOR_ID r = "V1"%string).
Proof.
  assert (H : In "V1"%string (map h_VENDOR_ID lone_health)) by (left; reflexivity).
  split; [exact H |].
  exact (proj1 (missing_cpm_or_dispute_scores_one lone_health [] [] [] "V1" H)).
Defined.

Lemma missing_delivery_penalizes_viewability_witness :
  In "V1"%string (map h_VENDOR_ID lone_health) /\
  ~ In "V1"%string (map d_VENDOR_ID []) /\
  (exists r, In r (dyn lone_health [] [] []) /\ VENDOR_ID r = "V1"%string).
Proof.
  assert (H : In "V1"%string (map h_VENDOR_ID lone_health)) by (left; reflexivity).
  assert (Hno : ~ In "V1"%string (map d_VENDOR_ID [])) by (simpl; tauto).
  split; [exact H |]. split; [exact Hno |].
  exact (proj1 (missing_delivery_penalizes_viewability lone_health [] [] [] "V1" H Hno)).
Defined.

(** ** Filter and ranking *)

Lemma isin_In (sel_vendors : list string) (r : ScoredRow) :
  isin sel_vendors r = true <-> In (VENDOR_ID (vendor r)) sel_vendors.
Proof.
  unfold isin. rewrite existsb_exists. split.
  - intros [x [Hx Heq]]. apply String.eqb_eq in Heq. rewrite Heq. exact Hx.
  - intro Hin. exists (VENDOR_ID (vendor r)). split; [exact Hin |].
    apply String.eqb_refl.
Qed.

Lemma score_ge_trans : Relations_1.Transitive score_ge.
Proof.
  intros a b c Hab Hbc. unfold score_ge in *.
  eapply Qle_trans; eassumption.
Qed.

(** In a strongly sorted list an earlier element is related to every
    later one. *)
Lemma StronglySorted_nth_error {A : Type} (R : A -> A -> Prop) (l : list A) :
  StronglySorted R l ->
  forall (i j : nat) (a b : A),
    (i < j)%nat -> nth_error l i = Some a -> nth_error l j = Some b -> R a b.
Proof.
  induction 1 as [| x l Hs IH Hall]; intros i j a b Hij Ha Hb.
  - destruct i; discriminate.
  - destruct j as [| j]; [lia |]. simpl in Hb.
    destruct i as [| i]; simpl in Ha.
    + inversion Ha; subst. rewrite Forall_forall in Hall.
      apply Hall. eapply nth_error_In. exact Hb.
    + apply (IH i j); [lia | exact Ha | exact Hb].
Qed.

Section Rank.
Context `{SortValues}.

Lemma rank_In (sel_vendors : list string) (rows : list ScoredRow) (r : ScoredRow) :
In r (rank sel_vendors rows) <->
In r rows /\ In (VENDOR_ID (vendor r)) sel_vendors.
Proof.
unfold rank. rewrite <- isin_In, <- filter_In. split.
- apply Permutation_in. apply Permutation_sym. apply sort_values_perm.
- apply Permutation_in. apply sort_values_perm.
Qed.

Lemma rank_descending (sel_vendors : list string) (rows : list ScoredRow)
  (i j : nat) (a b : ScoredRow) :
(i < j)%nat ->
nth_error (rank sel_vendors rows) i = Some a ->
nth_error (rank sel_vendors rows) j = Some b ->
HEALTH_SCORE_DYNAMIC b <= HEALTH_SCORE_DYNAMIC a.
Proof.
apply (StronglySorted_nth_error score_ge).
apply Sorted_StronglySorted.
- exact score_ge_trans.
- unfold rank. apply sort_values_desc.
Qed.

Lemma ranking_Ok
  (health : list HealthRecord) (identity : list IdentityRecord)
  (finance : list FinanceRecord) (delivery : list DeliveryRecord)
  (sel_vendors : list string) (w_match w_overlap w_cpm w_view w_disputes : Q) :
~ py_sum [w_match; w_overlap; w_cpm; w_view; w_disputes] == 0 ->
exists weights,
  normalize [w_match; w_overlap; w_cpm; w_view; w_disputes] = Ok weights /\
  ranking health identity finance delivery sel_vendors
    w_match w_overlap w_cpm w_view w_disputes
  = Ok (rank sel_vendors
          (map (add_score weights) (dyn health identity finance delivery))).
Proof.
intro Hs. eexists. split.
- apply normalize_nonzero. exact Hs.
- unfold ranking. rewrite (normalize_nonzero _ Hs). reflexivity.
Qed.

End Rank.

(** C4. Whenever the sliders do not all stand at 0 the ranking is
    produced, and a vendor id occurs in it exactly when it is both
    selected and a Health vendor, whatever the other row-sets hold. *)
Theorem ranked_vendors_are_selected_health_vendors `{SortValues}
    (health : list HealthRecord) (identity : list IdentityRecord)
    (finance : list FinanceRecord) (delivery : list DeliveryRecord)
    (sel_vendors : list string) (w_match w_overlap w_cpm w_view w_disputes : Q) :
  ~ py_sum [w_match; w_overlap; w_cpm; w_view; w_disputes] == 0 ->
  exists ranked,
    ranking health identity finance delivery sel_vendors
      w_match w_overlap w_cpm w_view w_disputes = Ok ranked /\
    forall v,
      In v (map (fun r => VENDOR_ID (vendor r)) ranked) <->
      In v sel_vendors /\ In v (map h_VENDOR_ID health).
Proof.
  intro Hs.
  destruct (ranking_Ok health identity finance delivery sel_vendors _ _ _ _ _ Hs)
    as [weights [_ Hr]].
  eexists. split; [exact Hr |]. intro v.
  rewrite <- (dyn_vendor_ids health identity finance delivery v).
  rewrite !in_map_iff. split.
  - intros [r [<- Hin]]. apply rank_In in Hin. destruct Hin as [Hin Hsel].
    split; [exact Hsel |].
    apply in_map_iff in Hin. destruct Hin as [d [<- Hd]].
    exists d. split; [reflexivity | exact Hd].
  - intros [Hsel [d [<- Hd]]]. exists (add_score weights d). split; [reflexivity |].
    apply rank_In. split; [| exact Hsel].
    apply in_map. exact Hd.
Qed.


Lemma default_weights_sum_nonzero : ~ py_sum [0.30; 0.15; 0.25; 0.20; 0.10] == 0.
Proof. intro H. vm_compute in H. discriminate H. Defined.

Lemma ranked_vendors_are_selected_health_vendors_witness :
  exists ranked,
    @ranking merge_sort_values sample_health sample_identity sample_finance
      sample_delivery ["A"%string; "C"%string] 0.30 0.15 0.25 0.20 0.10 = Ok ranked /\
    forall v,
      In v (map (fun r => VENDOR_ID (vendor r)) ranked) <->
      In v ["A"%string; "C"%string] /\ In v (map h_VENDOR_ID sample_health).
Proof.
  exact (@ranked_vendors_are_selected_health_vendors merge_sort_values
           sample_health sample_identity sample_finance sample_delivery
           ["A"%string; "C"%string] 0.30 0.15 0.25 0.20 0.10
           default_weights_sum_nonzero).
Defined.


(** The sample ranked: vendor A only when A and C are selected; A before
    B, by score, when B and A are. *)
Example sample_ranking :
  (exists ranked,
     ranking sample_health sample_identity sample_finance sample_delivery
       ["A"%string; "C"%string] 0.30 0.15 0.25 0.20 0.10 = Ok ranked /\
     map (fun r => VENDOR_ID (vendor r)) ranked = ["A"%string]) /\
  (exists ranked,
     ranking sample_health sample_identity sample_finance sample_delivery
       ["B"%string; "A"%string] 0.30 0.15 0.25 0.20 0.10 = Ok ranked /\
     map (fun r => VENDOR_ID (vendor r)) ranked = ["A"%string; "B"%string]).
Proof.
  split; vm_compute; eexists; split; reflexivity.
Qed.

(** Rows of equal score.  Both sorts above meet the [sort_values]
    interface, and they return two rows of equal score in opposite
    orders: the order of ties is not determined by what the program
    relies on. *)
Example tie_order_depends_on_the_sort :
  let a := {| vendor := {| VENDOR_ID := "A"; MATCH_RATE := 0; OVERLAP := 0;
                           AVG_LATENCY_HOURS := 0; DISPUTE_RATE := 0; CPM := 0;
                           VIEWABILITY := 0 |};
              HEALTH_SCORE_DYNAMIC := 50 |} in
  let b := {| vendor := {| VENDOR_ID := "B"; MATCH_RATE := 0; OVERLAP := 0;
                           AVG_LATENCY_HOURS := 0; DISPUTE_RATE := 0; CPM := 0;
                           VIEWABILITY := 0 |};
              HEALTH_SCORE_DYNAMIC := 50 |} in
  @rank merge_sort_values ["A"%string; "B"%string] [a; b] = [a; b] /\
  @rank reversing_sort_values ["A"%string; "B"%string] [a; b] = [b; a].
Proof. split; reflexivity. Qed.

(** ** Budget vs invoiced variance *)

(** A finance row whose key no budget row carries comes out once, with a
    NaN budget and a NaN variance. *)
Lemma unmatched_budget_gives_nan_variance
    (finance : list FinanceRecord) (budgets : list BudgetRecord) (row : FinanceSummaryRow) :
  (forall f b, In f finance -> In b budgets -> same_key f b = false) ->
  In row (finance_summary finance budgets) ->
  fs_BUDGET_ALLOCATED_USD row = None /\ fs_VARIANCE_USD row = None.
Proof.
  intros Hno. unfold finance_summary, merge_budgets.
  rewrite in_map_iff. intros [[f c] [<- Hin]].
  apply in_flat_map in Hin. destruct Hin as [f' [Hf Hin]].
  destruct (filter (same_key f') budgets) as [| b bs] eqn:E.
  - destruct Hin as [Heq | []]. inversion Heq; subst. simpl.
    split; [reflexivity |]. destruct (f_INVOICED_USD f); reflexivity.
  - assert (Hb : In b (filter (same_key f') budgets)) by (rewrite E; left; reflexivity).
    apply filter_In in Hb. destruct Hb as [Hb Hk].
    rewrite (Hno f' b Hf Hb) in Hk. discriminate Hk.
Qed.

(** With a budget row (spec example: budget 1000, invoiced 1200) the
    variance is the difference. *)
Example matched_budget_variance :
  map fs_VARIANCE_USD
    (finance_summary
       [{| f_MONTH := "M"; f_VENDOR_ID := "V1"; f_INVOICED_USD := Some 1200;
           f_DISPUTE_RATE := Some 0.05 |}]
       [{| b_MONTH := "M"; b_VENDOR_ID := "V1"; b_BUDGET_ALLOCATED_USD := Some 1000 |}])
  = [Some 200].
Proof. reflexivity. Qed.

(** C2 (the program's behaviour at an input of the claim). A finance row
    invoiced 1200 with no budget row for its month and vendor: the merged
    budget is NaN and so is the variance, not 1200. *)
Theorem unmatched_budget_variance_is_nan :
  finance_summary
    [{| f_MONTH := "M"; f_VENDOR_ID := "V1"; f_INVOICED_USD := Some 1200;
        f_DISPUTE_RATE := Some 0.05 |}]
    []
  = [{| fs_MONTH := "M"; fs_VENDOR_ID := "V1";
        fs_BUDGET_ALLOCATED_USD := None;
        fs_INVOICED_USD := Some 1200;
        fs_VARIANCE_USD := None;
        fs_DISPUTE_RATE := Some 0.05 |}].
Proof. reflexivity. Qed.

(* ------------------------------------------------------------------ *)
(** * Further properties of the pipeline *)

(** ** Weight normalisation, in general *)

(** X1. Normalisation faults exactly when there is at least one weight
    and the weights sum to 0, and the fault is [ZeroDivisionError]; for any
    nonzero sum it returns each weight divided by the sum. *)
Theorem normalize_raises_iff (weights : list Q) :
  (normalize weights = Raise ZeroDivisionError <->
   weights <> [] /\ py_sum weights == 0) /\
  (~ py_sum weights == 0 ->
   normalize weights = Ok (map (fun w => w / py_sum weights) weights)).
Proof.
  split; [split |].
  - intro Hr. split.
    + intro He. subst weights. discriminate Hr.
    + destruct (Qeq_dec (py_sum weights) 0) as [Hz | Hnz]; [exact Hz |].
      rewrite (normalize_nonzero _ Hnz) in Hr. discriminate Hr.
  - intros [Hne Hz]. destruct weights as [| w l]; [contradiction |].
    unfold normalize. simpl. rewrite (py_div_zero w _ Hz). reflexivity.
  - apply normalize_nonzero.
Qed.

Lemma normalize_raises_iff_witness :
  normalize default_weights
  = Ok (map (fun w => w / py_sum default_weights) default_weights).
Proof.
  exact (proj2 (normalize_raises_iff default_weights) default_weights_sum_nonzero).
Defined.

Lemma py_sum_nonneg (l : list Q) :
  (forall w, In w l -> 0 <= w) -> 0 <= py_sum l.
Proof.
  induction l as [| x l IH]; intro Hl.
  - unfold py_sum. simpl. lra.
  - rewrite py_sum_cons.
    assert (0 <= x) by (apply Hl; left; reflexivity).
    assert (0 <= py_sum l) by (apply IH; intros w Hw; apply Hl; right; exact Hw).
    lra.
Qed.

Lemma In_le_py_sum (l : list Q) (w : Q) :
  (forall x, In x l -> 0 <= x) -> In w l -> w <= py_sum l.
Proof.
  induction l as [| x l IH]; intros Hl Hw.
  - destruct Hw.
  - rewrite py_sum_cons.
    assert (Hx : 0 <= x) by (apply Hl; left; reflexivity).
    assert (Hl' : forall y, In y l -> 0 <= y) by (intros y Hy; apply Hl; right; exact Hy).
    pose proof (py_sum_nonneg l Hl') as Hs.
    destruct Hw as [<- | Hw].
    + lra.
    + pose proof (IH Hl' Hw). lra.
Qed.

(** X2. Non-negative raw weights with a positive sum normalise to
    weights that each lie in [0,1]. *)
Theorem normalized_weights_in_unit_interval (weights : list Q) :
  (forall w, In w weights -> 0 <= w) ->
  0 < py_sum weights ->
  exists ns,
    normalize weights = Ok ns /\
    forall n, In n ns -> 0 <= n <= 1.
Proof.
  intros Hnn Hpos.
  assert (Hnz : ~ py_sum weights == 0) by (intro H0; rewrite H0 in Hpos; lra).
  eexists. split; [apply normalize_nonzero; exact Hnz |].
  intros n Hn. apply in_map_iff in Hn. destruct Hn as [w [<- Hw]].
  pose proof (Hnn w Hw) as H0.
  pose proof (In_le_py_sum weights w Hnn Hw) as H1.
  split.
  - apply Qle_shift_div_l; [exact Hpos | lra].
  - apply Qle_shift_div_r; [exact Hpos | lra].
Qed.

Lemma normalized_weights_in_unit_interval_witness :
  exists ns,
    normalize default_weights = Ok ns /\
    forall n, In n ns -> 0 <= n <= 1.
Proof.
  apply (normalized_weights_in_unit_interval default_weights).
  - intros w Hw. simpl in Hw.
    destruct Hw as [<- | [<- | [<- | [<- | [<- | []]]]]]; discriminate.
  - reflexivity.
Defined.

(** ** The score formula, in general *)

Lemma clip_monotone (lower upper x y : Q) :
  x <= y -> clip lower upper x <= clip lower upper y.
Proof.
  intro H. unfold clip.
  apply Q.min_le_compat_l. apply Q.max_le_compat_l. exact H.
Qed.

Lemma cpm_term_antitone (c c' : Q) : c <= c' -> cpm_term c' <= cpm_term c.
Proof.
  intro H. unfold cpm_term.
  setoid_replace (c / 15) with ((1 # 15) * c) by field.
  setoid_replace (c' / 15) with ((1 # 15) * c') by field.
  lra.
Qed.

Lemma view_term_monotone (v v' : Q) : v <= v' -> view_term v <= view_term v'.
Proof.
  intro H. unfold view_term.
  setoid_replace ((v - 0.5) / 0.5) with (2 * v - 1) by field.
  setoid_replace ((v' - 0.5) / 0.5) with (2 * v' - 1) by field.
  lra.
Qed.

Lemma Qmult_le_nonneg_l (a x y : Q) : 0 <= a -> x <= y -> a * x <= a * y.
Proof.
  intros Ha Hxy. rewrite (Qmult_comm a x), (Qmult_comm a y).
  apply Qmult_le_compat_r; assumption.
Qed.

(** X4. With non-negative weights the score moves the way the slider
    labels say: a vendor that is at least as good on every metric (match
    rate, overlap and viewability not lower; CPM and dispute rate not
    higher) never scores lower. *)
Theorem health_score_monotone (weights : list Q) (r r' : DynRow) :
  (forall k, 0 <= weight weights k) ->
  MATCH_RATE r <= MATCH_RATE r' ->
  OVERLAP r <= OVERLAP r' ->
  CPM r' <= CPM r ->
  VIEWABILITY r <= VIEWABILITY r' ->
  DISPUTE_RATE r' <= DISPUTE_RATE r ->
  health_score weights r <= health_score weights r'.
Proof.
  intros Hw Hm Ho Hc Hv Hd.
  assert (Hsum : weighted_sum weights r <= weighted_sum weights r').
  { unfold weighted_sum.
    pose proof (Hw 0%nat) as H0. pose proof (Hw 1%nat) as H1.
    pose proof (Hw 2%nat) as H2. pose proof (Hw 3%nat) as H3.
    pose proof (Hw 4%nat) as H4.
    pose proof (cpm_term_antitone _ _ Hc) as Hc'.
    pose proof (view_term_monotone _ _ Hv) as Hv'.
    assert (Hd' : dispute_term (DISPUTE_RATE r) <= dispute_term (DISPUTE_RATE r'))
      by (unfold dispute_term; lra).
    repeat apply Qplus_le_compat; apply Qmult_le_nonneg_l; assumption. }
  unfold health_score.
  apply Qmult_le_compat_r; [| discriminate].
  apply clip_monotone. exact Hsum.
Qed.

Lemma health_score_monotone_witness :
  health_score default_weights
    {| VENDOR_ID := "V2"; MATCH_RATE := 0.8; OVERLAP := 0.5; AVG_LATENCY_HOURS := 0;
       DISPUTE_RATE := 0.05; CPM := 12; VIEWABILITY := 0.7 |}
  <= health_score default_weights example_vendor.
Proof.
  apply health_score_monotone; simpl; try discriminate.
  intro k. unfold weight, default_weights.
  do 5 (destruct k as [| k]; [simpl; discriminate |]).
  destruct k; simpl; discriminate.
Defined.


(** ** The joined frame, in general *)

Lemma filter_nil_iff {A : Type} (f : A -> bool) (l : list A) :
  filter f l = [] <-> forall x, In x l -> f x = false.
Proof.
  induction l as [| a l IH]; simpl.
  - split; [intros _ x [] | reflexivity].
  - destruct (f a) eqn:E; split.
    + discriminate.
    + intro H. rewrite (H a (or_introl eq_refl)) in E. discriminate E.
    + intros H x [<- | Hx]; [exact E | apply IH; assumption].
    + intro H. apply IH. intros x Hx. apply H. right. exact Hx.
Qed.

Lemma merge_left_unmatched {A B : Type} (key_l : A -> string) (key_r : B -> string)
    (l : list A) (r : list B) (a : A) :
  In (a, None) (merge_left key_l key_r l r) ->
  forall b, In b r -> key_r b <> key_l a.
Proof.
  unfold merge_left. rewrite in_flat_map. intros [a' [_ Hp]] b Hb Heq.
  destruct (filter (fun b0 => String.eqb (key_r b0) (key_l a')) r) as [| b0 bs] eqn:E.
  - destruct Hp as [Hp | []]. inversion Hp; subst a'.
    rewrite filter_nil_iff in E. specialize (E b Hb).
    rewrite Heq, String.eqb_refl in E. discriminate E.
  - apply in_map_iff in Hp. destruct Hp as [b' [Hp _]]. discriminate Hp.
Qed.

Lemma dyn1_row (health : list HealthRecord) (identity : list IdentityRecord)
    (r : IdentityRow) :
  In r (dyn1 health identity) ->
  (~ In (ir_VENDOR_ID r) (map i_VENDOR_ID identity) /\
   ir_MATCH_RATE r = 0 /\ ir_OVERLAP r = 0 /\ ir_AVG_LATENCY_HOURS r = 0) \/
  (exists i, In i identity /\ i_VENDOR_ID i = ir_VENDOR_ID r /\
             ir_MATCH_RATE r = fillna0 (i_MATCH_RATE i) /\
             ir_OVERLAP r = fillna0 (i_OVERLAP i) /\
             ir_AVG_LATENCY_HOURS r = fillna0 (i_AVG_LATENCY_HOURS i)).
Proof.
  unfold dyn1, merge_right. rewrite map_map, in_map_iff.
  intros [[h [i |]] [<- Hp]]; simpl.
  - right. apply merge_left_matched in Hp. destruct Hp as [Hi Hk].
    exists i. repeat split; assumption.
  - left. split; [| repeat split].
    intro Hin. apply in_map_iff in Hin. destruct Hin as [i [Hk Hi]].
    exact (merge_left_unmatched _ _ _ _ _ Hp i Hi Hk).
Qed.

Lemma dyn_from_dyn1 (health : list HealthRecord) (identity : list IdentityRecord)
    (finance : list FinanceRecord) (delivery : list DeliveryRecord) (r : DynRow) :
  In r (dyn health identity finance delivery) ->
  exists i, In i (dyn1 health identity) /\
            VENDOR_ID r = ir_VENDOR_ID i /\ MATCH_RATE r = ir_MATCH_RATE i /\
            OVERLAP r = ir_OVERLAP i /\ AVG_LATENCY_HOURS r = ir_AVG_LATENCY_HOURS i.
Proof.
  unfold dyn. rewrite in_map_iff.
  intros [[[[i dispute] cpm] view] [<- H4]]. simpl.
  pose proof (merge_fill_fst _ _ _ _ H4) as H3. simpl in H3.
  pose proof (merge_fill_fst _ _ _ _ H3) as H2. simpl in H2.
  pose proof (merge_fill_fst _ _ _ _ H2) as H1. simpl in H1.
  exists i. repeat split. exact H1.
Qed.

(** X6. Line 41 on every row of [dyn]: a vendor with no Identity row has
    match rate, overlap and latency 0; otherwise the three values are
    those of one Identity row of that vendor, with NaN cells read as 0. *)
Theorem identity_columns_of_dyn
    (health : list HealthRecord) (identity : list IdentityRecord)
    (finance : list FinanceRecord) (delivery : list DeliveryRecord) (r : DynRow) :
  In r (dyn health identity finance delivery) ->
  (~ In (VENDOR_ID r) (map i_VENDOR_ID identity) /\
   MATCH_RATE r = 0 /\ OVERLAP r = 0 /\ AVG_LATENCY_HOURS r = 0) \/
  (exists i, In i identity /\ i_VENDOR_ID i = VENDOR_ID r /\
             MATCH_RATE r = fillna0 (i_MATCH_RATE i) /\
             OVERLAP r = fillna0 (i_OVERLAP i) /\
             AVG_LATENCY_HOURS r = fillna0 (i_AVG_LATENCY_HOURS i)).
Proof.
  intro Hr. destruct (dyn_from_dyn1 _ _ _ _ r Hr) as [i [Hi [-> [-> [-> ->]]]]].
  apply (dyn1_row health identity). exact Hi.
Qed.

Lemma example_dyn_row :
  In {| VENDOR_ID := "B"; MATCH_RATE := 0; OVERLAP := 0; AVG_LATENCY_HOURS := 0;
        DISPUTE_RATE := 0.05 / 1; CPM := 0; VIEWABILITY := 0 |}
     (dyn sample_health sample_identity sample_finance sample_delivery).
Proof. right. left. reflexivity. Defined.

Lemma identity_columns_of_dyn_witness :
  let r := {| VENDOR_ID := "B"; MATCH_RATE := 0; OVERLAP := 0; AVG_LATENCY_HOURS := 0;
              DISPUTE_RATE := 0.05 / 1; CPM := 0; VIEWABILITY := 0 |} in
  (~ In (VENDOR_ID r) (map i_VENDOR_ID sample_identity) /\
   MATCH_RATE r = 0 /\ OVERLAP r = 0 /\ AVG_LATENCY_HOURS r = 0) \/
  (exists i, In i sample_identity /\ i_VENDOR_ID i = VENDOR_ID r /\
             MATCH_RATE r = fillna0 (i_MATCH_RATE i) /\
             OVERLAP r = fillna0 (i_OVERLAP i) /\
             AVG_LATENCY_HOURS r = fillna0 (i_AVG_LATENCY_HOURS i)).
Proof.
  exact (identity_columns_of_dyn sample_health sample_identity sample_finance
           sample_delivery _ example_dyn_row).
Defined.

Lemma groupby_mean_In {A : Type} (key : A -> string) (col : A -> cell)
    (frame : list A) (k : string) (c : cell) :
  In (k, c) (groupby_mean key col frame) ->
  c = mean (map col (filter (fun r => String.eqb (key r) k) frame)).
Proof.
  unfold groupby_mean. rewrite in_map_iff. intros [k' [Heq _]].
  inversion Heq; subst. reflexivity.
Qed.

(** What a merged-in aggregate column holds on each row: the mean of the
    group of the row's key, NaN read as 0; an empty group has NaN mean. *)
Lemma merge_fill_groupby_value {A F : Type} (key : A -> string)
    (fkey : F -> string) (col : F -> cell) (l : list A) (frame : list F)
    (a : A) (q : Q) :
  In (a, q) (merge_fill key l (groupby_mean fkey col frame)) ->
  q = fillna0 (mean (map col (filter (fun r => String.eqb (fkey r) (key a)) frame))).
Proof.
  unfold merge_fill. rewrite in_map_iff. intros [[a' ob] [Heq Hin]].
  simpl in Heq. inversion Heq; subst. destruct ob as [[k c] |]; simpl.
  - apply merge_left_matched in Hin. destruct Hin as [Hin Hk]. simpl in Hk.
    subst k. rewrite (groupby_mean_In _ _ _ _ _ Hin). reflexivity.
  - assert (Hnil : filter (fun r => String.eqb (fkey r) (key a)) frame = []).
    { apply filter_nil_iff. intros x Hx.
      destruct (String.eqb (fkey x) (key a)) eqn:E; [| reflexivity].
      apply String.eqb_eq in E. exfalso.
      assert (Hk : In (key a) (map fst (groupby_mean fkey col frame))).
      { rewrite groupby_mean_keys. rewrite <- E. apply in_map. exact Hx. }
      apply in_map_iff in Hk. destruct Hk as [kc [Hk Hkc]].
      exact (merge_left_unmatched _ _ _ _ _ Hin kc Hkc Hk). }
    rewrite Hnil. reflexivity.
Qed.

(** X7. Lines 42-47 on every row of [dyn]: the dispute rate is the mean
    of the vendor's Finance dispute rates, the CPM and the viewability
    are the means of the vendor's Delivery values; NaN cells are left out
    of a mean, and a mean over nothing counts as 0. *)
Theorem aggregate_columns_of_dyn
    (health : list HealthRecord) (identity : list IdentityRecord)
    (finance : list FinanceRecord) (delivery : list DeliveryRecord) (r : DynRow) :
  In r (dyn health identity finance delivery) ->
  DISPUTE_RATE r =
    fillna0 (mean (map f_DISPUTE_RATE
                     (filter (fun f => String.eqb (f_VENDOR_ID f) (VENDOR_ID r)) finance))) /\
  CPM r =
    fillna0 (mean (map d_CPM
                     (filter (fun d => String.eqb (d_VENDOR_ID d) (VENDOR_ID r)) delivery))) /\
  VIEWABILITY r =
    fillna0 (mean (map d_VIEWABILITY
                     (filter (fun d => String.eqb (d_VENDOR_ID d) (VENDOR_ID r)) delivery))).
Proof.
  unfold dyn. rewrite in_map_iff.
  intros [[[[i dispute] cpm] view] [<- H4]]. simpl.
  pose proof (merge_fill_fst _ _ _ _ H4) as H3. simpl in H3.
  pose proof (merge_fill_fst _ _ _ _ H3) as H2. simpl in H2.
  split; [| split].
  - exact (merge_fill_groupby_value _ _ _ _ _ _ _ H2).
  - exact (merge_fill_groupby_value _ _ _ _ _ _ _ H3).
  - exact (merge_fill_groupby_value _ _ _ _ _ _ _ H4).
Qed.

Lemma example_dyn_row_A :
  In {| VENDOR_ID := "A"; MATCH_RATE := 0.8; OVERLAP := 0.5; AVG_LATENCY_HOURS := 2;
        DISPUTE_RATE := 0; CPM := (0 + 10 + 12) / 2; VIEWABILITY := (0 + 0.7) / 1 |}
     (dyn sample_health sample_identity sample_finance sample_delivery).
Proof. left. reflexivity. Defined.

Lemma aggregate_columns_of_dyn_witness :
  let r := {| VENDOR_ID := "A"; MATCH_RATE := 0.8; OVERLAP := 0.5;
              AVG_LATENCY_HOURS := 2; DISPUTE_RATE := 0;
              CPM := (0 + 10 + 12) / 2; VIEWABILITY := (0 + 0.7) / 1 |} in
  DISPUTE_RATE r =
    fillna0 (mean (map f_DISPUTE_RATE
                     (filter (fun f => String.eqb (f_VENDOR_ID f) "A") sample_finance))) /\
  CPM r =
    fillna0 (mean (map d_CPM
                     (filter (fun d => String.eqb (d_VENDOR_ID d) "A") sample_delivery))) /\
  VIEWABILITY r =
    fillna0 (mean (map d_VIEWABILITY
                     (filter (fun d => String.eqb (d_VENDOR_ID d) "A") sample_delivery))).
Proof.
  exact (aggregate_columns_of_dyn sample_health sample_identity sample_finance
           sample_delivery _ example_dyn_row_A).
Defined.

(** Among rows with pairwise distinct keys at most one has a given key. *)
Lemma filter_key_NoDup {B : Type} (key : B -> string) (k : string) (l : list B) :
  NoDup (map key l) ->
  filter (fun b => String.eqb (key b) k) l = [] \/
  exists b, filter (fun b => String.eqb (key b) k) l = [b].
Proof.
  induction l as [| x l IH]; intro Hnd; simpl.
  - left. reflexivity.
  - simpl in Hnd. inversion Hnd as [| ? ? Hx Hl]; subst.
    destruct (String.eqb (key x) k) eqn:E.
    + right. exists x. f_equal. apply filter_nil_iff. intros y Hy.
      destruct (String.eqb (key y) k) eqn:Ey; [| reflexivity].
      apply String.eqb_eq in E, Ey. exfalso. apply Hx.
      rewrite E, <- Ey. apply in_map. exact Hy.
    + apply IH. exact Hl.
Qed.

(** A left merge against a frame with distinct keys keeps the left
    frame's rows as they are: one output row per left row, in order. *)
Lemma merge_left_NoDup_fst {A B : Type} (key_l : A -> string) (key_r : B -> string)
    (l : list A) (r : list B) :
  NoDup (map key_r r) -> map fst (merge_left key_l key_r l r) = l.
Proof.
  intro Hnd. unfold merge_left. induction l as [| a l IH].
  - reflexivity.
  - cbn [flat_map]. rewrite map_app, IH.
    destruct (filter_key_NoDup key_r (key_l a) r Hnd) as [-> | [b ->]]; reflexivity.
Qed.

Lemma groupby_mean_NoDup {A : Type} (key : A -> string) (col : A -> cell)
    (frame : list A) :
  NoDup (map fst (groupby_mean key col frame)).
Proof.
  unfold groupby_mean. rewrite map_map. simpl. rewrite map_id.
  apply NoDup_nodup.
Qed.

Lemma merge_fill_groupby_fst {A F : Type} (key : A -> string)
    (fkey : F -> string) (col : F -> cell) (l : list A) (frame : list F) :
  map fst (merge_fill key l (groupby_mean fkey col frame)) = l.
Proof.
  unfold merge_fill. rewrite map_map. simpl.
  apply merge_left_NoDup_fst. apply groupby_mean_NoDup.
Qed.

(** The three aggregate merges neither add nor drop nor reorder rows. *)
Lemma dyn_vendor_column (health : list HealthRecord) (identity : list IdentityRecord)
    (finance : list FinanceRecord) (delivery : list DeliveryRecord) :
  map VENDOR_ID (dyn health identity finance delivery) =
  map ir_VENDOR_ID (dyn1 health identity).
Proof.
  unfold dyn.
  rewrite map_map.
  assert (E : forall l : list (IdentityRow * Q * Q * Q),
             map (fun x => VENDOR_ID (to_DynRow x)) l =
             map ir_VENDOR_ID (map fst (map fst (map fst l)))).
  { intro l. rewrite !map_map. apply map_ext. intros [[[i a] b] c]. reflexivity. }
  rewrite E. unfold dyn4, dyn3, dyn2.
  rewrite !merge_fill_groupby_fst. reflexivity.
Qed.

(** X8. When no two Identity rows share a vendor id, [dyn] has exactly one
    row per Health row, in the order of the Health frame. *)
Theorem dyn_one_row_per_health_row
    (health : list HealthRecord) (identity : list IdentityRecord)
    (finance : list FinanceRecord) (delivery : list DeliveryRecord) :
  NoDup (map i_VENDOR_ID identity) ->
  map VENDOR_ID (dyn health identity finance delivery) = map h_VENDOR_ID health.
Proof.
  intro Hnd. rewrite dyn_vendor_column.
  unfold dyn1, merge_right. rewrite !map_map.
  rewrite <- (merge_left_NoDup_fst h_VENDOR_ID i_VENDOR_ID health identity Hnd) at 2.
  rewrite map_map. apply map_ext. intros [h oi]. apply fill_identity_vendor.
Qed.

Lemma sample_identity_NoDup : NoDup (map i_VENDOR_ID sample_identity).
Proof.
  simpl. constructor.
  - intros [H | []]. discriminate H.
  - constructor; [intros [] | constructor].
Defined.

Lemma dyn_one_row_per_health_row_witness :
  map VENDOR_ID (dyn sample_health sample_identity sample_finance sample_delivery)
  = map h_VENDOR_ID sample_health.
Proof.
  exact (dyn_one_row_per_health_row sample_health sample_identity sample_finance
           sample_delivery sample_identity_NoDup).
Defined.

(** Two Identity rows for one vendor give that vendor two rows. *)
Example duplicated_identity_row_fans_out :
  map VENDOR_ID
    (dyn lone_health
       [{| i_VENDOR_ID := "V1"; i_MATCH_RATE := Some 0.8; i_OVERLAP := Some 0.5;
           i_AVG_LATENCY_HOURS := None |};
        {| i_VENDOR_ID := "V1"; i_MATCH_RATE := Some 0.6; i_OVERLAP := None;
           i_AVG_LATENCY_HOURS := None |}]
       [] [])
  = ["V1"%string; "V1"%string].
Proof. reflexivity. Qed.

(** ** Ranges of the joined metrics *)

Lemma inject_Z_length_cons {A : Type} (x : A) (l : list A) :
  inject_Z (Z.of_nat (List.length (x :: l))) == inject_Z (Z.of_nat (List.length l)) + 1.
Proof.
  simpl List.length. rewrite Znat.Nat2Z.inj_succ. unfold Z.succ.
  rewrite inject_Z_plus. reflexivity.
Qed.

Lemma inject_Z_length_nonneg {A : Type} (l : list A) :
  0 <= inject_Z (Z.of_nat (List.length l)).
Proof.
  change 0 with (inject_Z 0). rewrite <- Zle_Qle. apply Znat.Nat2Z.is_nonneg.
Qed.

Lemma py_sum_ge (lo : Q) (l : list Q) :
  (forall q, In q l -> lo <= q) ->
  inject_Z (Z.of_nat (List.length l)) * lo <= py_sum l.
Proof.
  induction l as [| x l IH]; intro H.
  - unfold py_sum. cbn [List.length fold_left Z.of_nat].
    change (inject_Z 0) with 0. lra.
  - rewrite inject_Z_length_cons, py_sum_cons.
    assert (lo <= x) by (apply H; left; reflexivity).
    assert (inject_Z (Z.of_nat (List.length l)) * lo <= py_sum l)
      by (apply IH; intros q Hq; apply H; right; exact Hq).
    lra.
Qed.

Lemma py_sum_le (hi : Q) (l : list Q) :
  (forall q, In q l -> q <= hi) ->
  py_sum l <= inject_Z (Z.of_nat (List.length l)) * hi.
Proof.
  induction l as [| x l IH]; intro H.
  - unfold py_sum. cbn [List.length fold_left Z.of_nat].
    change (inject_Z 0) with 0. lra.
  - rewrite inject_Z_length_cons, py_sum_cons.
    assert (x <= hi) by (apply H; left; reflexivity).
    assert (py_sum l <= inject_Z (Z.of_nat (List.length l)) * hi)
      by (apply IH; intros q Hq; apply H; right; exact Hq).
    lra.
Qed.

Lemma dropna_In (xs : list cell) (q : Q) : In q (dropna xs) <-> In (Some q) xs.
Proof.
  induction xs as [| [x |] xs IH]; simpl.
  - tauto.
  - rewrite IH. split; (intros [H | H]; [left; congruence | right; exact H]).
  - rewrite IH. split; [intro H; right; exact H | intros [H | H]; [discriminate | exact H]].
Qed.

(** A mean lies between any bounds of the values it averages. *)
Lemma mean_bounds (xs : list cell) (m : Q) :
  mean xs = Some m ->
  (forall lo, (forall q, In (Some q) xs -> lo <= q) -> lo <= m) /\
  (forall hi, (forall q, In (Some q) xs -> q <= hi) -> m <= hi).
Proof.
  unfold mean. destruct (dropna xs) as [| v vs] eqn:E; [discriminate |].
  intro Hm. inversion Hm; subst m. clear Hm.
  assert (Hn : 0 < inject_Z (Z.of_nat (List.length (v :: vs)))).
  { rewrite inject_Z_length_cons. pose proof (inject_Z_length_nonneg vs). lra. }
  assert (Hin : forall q, In q (v :: vs) -> In (Some q) xs)
    by (intros q Hq; apply dropna_In; rewrite E; exact Hq).
  split.
  - intros lo Hlo. apply Qle_shift_div_l; [exact Hn |].
    rewrite (Qmult_comm lo).
    exact (py_sum_ge lo (v :: vs) (fun q Hq => Hlo q (Hin q Hq))).
  - intros hi Hhi. apply Qle_shift_div_r; [exact Hn |].
    rewrite (Qmult_comm hi).
    exact (py_sum_le hi (v :: vs) (fun q Hq => Hhi q (Hin q Hq))).
Qed.

Lemma fill_mean_ge {A : Type} (col : A -> cell) (l : list A) (lo : Q) :
  lo <= 0 ->
  (forall x q, In x l -> col x = Some q -> lo <= q) ->
  lo <= fillna0 (mean (map col l)).
Proof.
  intros H0 H. destruct (mean (map col l)) as [m |] eqn:E; simpl; [| exact H0].
  apply (proj1 (mean_bounds _ _ E)). intros q Hq.
  apply in_map_iff in Hq. destruct Hq as [x [Hc Hx]]. exact (H x q Hx Hc).
Qed.

Lemma fill_mean_le {A : Type} (col : A -> cell) (l : list A) (hi : Q) :
  0 <= hi ->
  (forall x q, In x l -> col x = Some q -> q <= hi) ->
  fillna0 (mean (map col l)) <= hi.
Proof.
  intros H0 H. destruct (mean (map col l)) as [m |] eqn:E; simpl; [| exact H0].
  apply (proj2 (mean_bounds _ _ E)). intros q Hq.
  apply in_map_iff in Hq. destruct Hq as [x [Hc Hx]]. exact (H x q Hx Hc).
Qed.

Lemma fillna0_bounds (c : cell) (lo hi : Q) :
  lo <= 0 -> 0 <= hi -> (forall q, c = Some q -> lo <= q <= hi) ->
  lo <= fillna0 c <= hi.
Proof.
  intros Hlo Hhi H. destruct c as [q |]; simpl.
  - apply H. reflexivity.
  - split; assumption.
Qed.

(** X9. The joins keep the metrics in the ranges of the source data: if
    every match rate, overlap, dispute rate and viewability present in
    the row-sets is in [0,1] and every CPM present is at least 0, the
    same holds of every row of [dyn], filled values included. *)
Theorem dyn_metrics_in_range
    (health : list HealthRecord) (identity : list IdentityRecord)
    (finance : list FinanceRecord) (delivery : list DeliveryRecord) :
  (forall i q, In i identity -> i_MATCH_RATE i = Some q -> 0 <= q <= 1) ->
  (forall i q, In i identity -> i_OVERLAP i = Some q -> 0 <= q <= 1) ->
  (forall f q, In f finance -> f_DISPUTE_RATE f = Some q -> 0 <= q <= 1) ->
  (forall d q, In d delivery -> d_CPM d = Some q -> 0 <= q) ->
  (forall d q, In d delivery -> d_VIEWABILITY d = Some q -> 0 <= q <= 1) ->
  forall r, In r (dyn health identity finance delivery) ->
    0 <= MATCH_RATE r <= 1 /\ 0 <= OVERLAP r <= 1 /\
    0 <= DISPUTE_RATE r <= 1 /\ 0 <= CPM r /\ 0 <= VIEWABILITY r <= 1.
Proof.
  intros Hm Ho Hd Hc Hv r Hr.
  assert (H01 : (0 <= 1)%Q) by discriminate.
  assert (H00 : (0 <= 0)%Q) by discriminate.
  destruct (dyn_from_dyn1 _ _ _ _ r Hr) as [i [Hi [_ [-> [-> _]]]]].
  assert (Hid : 0 <= ir_MATCH_RATE i <= 1 /\ 0 <= ir_OVERLAP i <= 1).
  { destruct (dyn1_row _ _ i Hi) as [[_ [-> [-> _]]] | [x [Hx [_ [-> [-> _]]]]]].
    - repeat split; discriminate.
    - split; apply fillna0_bounds; try assumption; intros q Hq.
      + exact (Hm x q Hx Hq).
      + exact (Ho x q Hx Hq). }
  destruct Hid as [Hmr Hov].
  split; [exact Hmr |]. split; [exact Hov |].
  revert Hr. unfold dyn. rewrite in_map_iff.
  intros [[[[i' dispute] cpm] view] [<- H4]]. simpl.
  pose proof (merge_fill_fst _ _ _ _ H4) as H3. simpl in H3.
  pose proof (merge_fill_fst _ _ _ _ H3) as H2. simpl in H2.
  rewrite (merge_fill_groupby_value _ _ _ _ _ _ _ H2).
  rewrite (merge_fill_groupby_value _ _ _ _ _ _ _ H3).
  rewrite (merge_fill_groupby_value _ _ _ _ _ _ _ H4).
  repeat split.
  - apply fill_mean_ge; [exact H00 |]. intros f q Hf Hq.
    apply filter_In in Hf. exact (proj1 (Hd f q (proj1 Hf) Hq)).
  - apply fill_mean_le; [exact H01 |]. intros f q Hf Hq.
    apply filter_In in Hf. exact (proj2 (Hd f q (proj1 Hf) Hq)).
  - apply fill_mean_ge; [exact H00 |]. intros d q Hf Hq.
    apply filter_In in Hf. exact (Hc d q (proj1 Hf) Hq).
  - apply fill_mean_ge; [exact H00 |]. intros d q Hf Hq.
    apply filter_In in Hf. exact (proj1 (Hv d q (proj1 Hf) Hq)).
  - apply fill_mean_le; [exact H01 |]. intros d q Hf Hq.
    apply filter_In in Hf. exact (proj2 (Hv d q (proj1 Hf) Hq)).
Qed.

Ltac sample_cells :=
  let x := fresh "x" in let q := fresh "q" in
  let Hx := fresh "Hx" in let Hq := fresh "Hq" in
  intros x q Hx Hq; simpl in Hx;
  repeat (destruct Hx as [Hx | Hx]; [subst x; simpl in Hq | ]);
  try contradiction;
  try discriminate Hq;
  inversion Hq; subst q; try split; discriminate.

Lemma dyn_metrics_in_range_witness :
  let r := {| VENDOR_ID := "A"; MATCH_RATE := 0.8; OVERLAP := 0.5;
              AVG_LATENCY_HOURS := 2; DISPUTE_RATE := 0;
              CPM := (0 + 10 + 12) / 2; VIEWABILITY := (0 + 0.7) / 1 |} in
  0 <= MATCH_RATE r <= 1 /\ 0 <= OVERLAP r <= 1 /\
  0 <= DISPUTE_RATE r <= 1 /\ 0 <= CPM r /\ 0 <= VIEWABILITY r <= 1.
Proof.
  apply (dyn_metrics_in_range sample_health sample_identity sample_finance
           sample_delivery); try sample_cells.
  exact example_dyn_row_A.
Defined.

(** ** The vendor list and the selection *)

Lemma unique_In (l : list string) (x : string) : In x (unique l) <-> In x l.
Proof.
  induction l as [| a l IH]; simpl; [tauto |].
  rewrite filter_In, IH. split.
  - intros [H | [H _]]; [left | right]; assumption.
  - intros [H | H]; [left; exact H |].
    destruct (String.eqb a x) eqn:E.
    + left. apply String.eqb_eq. exact E.
    + right. split; [exact H | reflexivity].
Qed.

Lemma NoDup_filter {A : Type} (f : A -> bool) (l : list A) :
  NoDup l -> NoDup (filter f l).
Proof.
  induction 1 as [| a l Ha Hl IH]; simpl; [constructor |].
  destruct (f a); [| exact IH].
  constructor; [| exact IH].
  intro Hin. apply filter_In in Hin. apply Ha. exact (proj1 Hin).
Qed.

Lemma unique_NoDup (l : list string) : NoDup (unique l).
Proof.
  induction l as [| a l IH]; simpl; constructor.
  - intro Hin. apply filter_In in Hin. destruct Hin as [_ Hne].
    rewrite String.eqb_refl in Hne. discriminate Hne.
  - apply NoDup_filter. exact IH.
Qed.

Lemma unique_of_NoDup (l : list string) : NoDup l -> unique l = l.
Proof.
  induction 1 as [| a l Ha Hl IH]; simpl; [reflexivity |].
  rewrite IH. f_equal.
  assert (Hall : forall y, In y l -> negb (String.eqb a y) = true).
  { intros y Hy. destruct (String.eqb a y) eqn:E; [| reflexivity].
    apply String.eqb_eq in E. subst y. contradiction. }
  clear Ha Hl IH. induction l as [| b l IHl]; simpl; [reflexivity |].
  rewrite (Hall b (or_introl eq_refl)). f_equal.
  apply IHl. intros y Hy. apply Hall. right. exact Hy.
Qed.

(** X10. The option list of the vendor multiselect holds every Health
    vendor id exactly once, and is the Health column itself when that
    column has no repeated id. *)
Theorem vendors_all_distinct_and_complete (health : list HealthRecord) :
  NoDup (vendors_all health) /\
  (forall v, In v (vendors_all health) <-> In v (map h_VENDOR_ID health)) /\
  (NoDup (map h_VENDOR_ID health) -> vendors_all health = map h_VENDOR_ID health).
Proof.
  unfold vendors_all. split; [apply unique_NoDup |].
  split; [intro v; apply unique_In | apply unique_of_NoDup].
Qed.

Lemma filter_all {A : Type} (f : A -> bool) (l : list A) :
  (forall x, In x l -> f x = true) -> filter f l = l.
Proof.
  induction l as [| a l IH]; intro H; simpl; [reflexivity |].
  rewrite (H a (or_introl eq_refl)). f_equal.
  apply IH. intros x Hx. apply H. right. exact Hx.
Qed.

(** X11. With the default selection (all vendors) nothing is filtered
    out: the ranking is a rearrangement of all the scored rows of [dyn],
    repeated rows included. *)
Theorem default_selection_ranks_every_row `{SortValues}
    (health : list HealthRecord) (identity : list IdentityRecord)
    (finance : list FinanceRecord) (delivery : list DeliveryRecord)
    (w_match w_overlap w_cpm w_view w_disputes : Q) :
  ~ py_sum [w_match; w_overlap; w_cpm; w_view; w_disputes] == 0 ->
  exists weights ranked,
    normalize [w_match; w_overlap; w_cpm; w_view; w_disputes] = Ok weights /\
    ranking health identity finance delivery (vendors_all health)
      w_match w_overlap w_cpm w_view w_disputes = Ok ranked /\
    Permutation (map (add_score weights) (dyn health identity finance delivery)) ranked.
Proof.
  intro Hs.
  destruct (ranking_Ok health identity finance delivery (vendors_all health)
              _ _ _ _ _ Hs) as [weights [Hn Hr]].
  exists weights. eexists. split; [exact Hn |]. split; [exact Hr |].
  unfold rank. rewrite filter_all; [apply sort_values_perm |].
  intros x Hx. apply isin_In. apply in_map_iff in Hx.
  destruct Hx as [d [<- Hd]]. simpl.
  unfold vendors_all. apply unique_In.
  apply (dyn_row_inv _ _ _ _ d Hd).
Qed.

Lemma default_selection_ranks_every_row_witness :
  exists weights ranked,
    normalize [0.30; 0.15; 0.25; 0.20; 0.10] = Ok weights /\
    @ranking merge_sort_values sample_health sample_identity sample_finance
      sample_delivery (vendors_all sample_health) 0.30 0.15 0.25 0.20 0.10 = Ok ranked /\
    Permutation
      (map (add_score weights)
         (dyn sample_health sample_identity sample_finance sample_delivery))
      ranked.
Proof.
  exact (@default_selection_ranks_every_row merge_sort_values
           sample_health sample_identity sample_finance sample_delivery
           0.30 0.15 0.25 0.20 0.10 default_weights_sum_nonzero).
Defined.

Section RankingFacts.
Context `{SortValues}.

Lemma sort_values_nil : sort_values [] = [].
Proof. apply Permutation_nil. apply sort_values_perm. Qed.



End RankingFacts.


(** X12. A selection that names no Health vendor, the empty selection in
    particular, gives an empty ranking (not a fault), and the three KPI
    cards show the dash. *)
Theorem no_selected_health_vendor_empty_ranking `{SortValues}
    (health : list HealthRecord) (identity : list IdentityRecord)
    (finance : list FinanceRecord) (delivery : list DeliveryRecord)
    (sel_vendors : list string) (w_match w_overlap w_cpm w_view w_disputes : Q) :
  ~ py_sum [w_match; w_overlap; w_cpm; w_view; w_disputes] == 0 ->
  (forall v, In v sel_vendors -> ~ In v (map h_VENDOR_ID health)) ->
  exists ranked,
    ranking health identity finance delivery sel_vendors
      w_match w_overlap w_cpm w_view w_disputes = Ok ranked /\
    ranked = [] /\
    kpi_top_vendor ranked = None /\ kpi_top_score ranked = None /\
    kpi_avg_score ranked = None.
Proof.
  intros Hs Hsel.
  destruct (ranking_Ok health identity finance delivery sel_vendors _ _ _ _ _ Hs)
    as [weights [_ Hr]].
  assert (Hnil : rank sel_vendors
                   (map (add_score weights) (dyn health identity finance delivery)) = []).
  { unfold rank.
    assert (Hf : filter (isin sel_vendors)
                   (map (add_score weights) (dyn health identity finance delivery)) = []).
    { apply filter_nil_iff. intros x Hx.
      destruct (isin sel_vendors x) eqn:E; [| reflexivity].
      apply isin_In in E. exfalso. apply (Hsel _ E).
      apply in_map_iff in Hx. destruct Hx as [d [<- Hd]]. simpl.
      apply (dyn_row_inv _ _ _ _ d Hd). }
    rewrite Hf. apply sort_values_nil. }
  exists []. rewrite Hr, Hnil. repeat split.
Qed.

Lemma no_selected_health_vendor_empty_ranking_witness :
  exists ranked,
    @ranking merge_sort_values sample_health sample_identity sample_finance
      sample_delivery [] 0.30 0.15 0.25 0.20 0.10 = Ok ranked /\
    ranked = [] /\
    kpi_top_vendor ranked = None /\ kpi_top_score ranked = None /\
    kpi_avg_score ranked = None.
Proof.
  apply (@no_selected_health_vendor_empty_ranking merge_sort_values).
  - exact default_weights_sum_nonzero.
  - intros v [].
Defined.



(** ** The variance table, in general *)

(** X14. The rows of the variance table (a left join): each comes from a
    finance row, either paired with a budget row of the same month and
    vendor, or, if there is none, with a NaN budget; every such pairing
    occurs, so no finance row is dropped. *)
Theorem finance_summary_rows
    (finance : list FinanceRecord) (budgets : list BudgetRecord) (row : FinanceSummaryRow) :
  In row (finance_summary finance budgets) <->
  exists f, In f finance /\
    (((forall b, In b budgets -> same_key f b = false) /\
      row = variance_row (f, None)) \/
     (exists b, In b budgets /\ same_key f b = true /\
                row = variance_row (f, b_BUDGET_ALLOCATED_USD b))).
Proof.
  unfold finance_summary, merge_budgets. rewrite in_map_iff. split.
  - intros [[f c] [<- Hin]]. apply in_flat_map in Hin.
    destruct Hin as [f' [Hf Hin]]. exists f'. split; [exact Hf |].
    destruct (filter (same_key f') budgets) as [| b bs] eqn:E.
    + destruct Hin as [Heq | []]. inversion Heq; subst. left.
      split; [| reflexivity]. apply filter_nil_iff. exact E.
    + apply in_map_iff in Hin. destruct Hin as [b' [Heq Hb']].
      inversion Heq; subst. right. rewrite <- E in Hb'.
      apply filter_In in Hb'. destruct Hb' as [Hb' Hk].
      exists b'. split; [exact Hb' |]. split; [exact Hk | reflexivity].
  - intros [f [Hf [[Hno ->] | [b [Hb [Hk ->]]]]]].
    + exists (f, None). split; [reflexivity |].
      apply in_flat_map. exists f. split; [exact Hf |].
      apply filter_nil_iff in Hno. rewrite Hno. left. reflexivity.
    + exists (f, b_BUDGET_ALLOCATED_USD b). split; [reflexivity |].
      apply in_flat_map. exists f. split; [exact Hf |].
      assert (Hin : In b (filter (same_key f) budgets))
        by (apply filter_In; split; assumption).
      destruct (filter (same_key f) budgets) as [| b0 bs]; [destruct Hin |].
      apply in_map_iff. exists b. split; [reflexivity | exact Hin].
Qed.

Lemma same_key_true (f : FinanceRecord) (b : BudgetRecord) :
  same_key f b = true <->
  (b_MONTH b, b_VENDOR_ID b) = (f_MONTH f, f_VENDOR_ID f).
Proof.
  unfold same_key. rewrite andb_true_iff, !String.eqb_eq. split.
  - intros [-> ->]. reflexivity.
  - intro H. inversion H. split; reflexivity.
Qed.

Lemma filter_same_key_NoDup (f : FinanceRecord) (budgets : list BudgetRecord) :
  NoDup (map (fun b => (b_MONTH b, b_VENDOR_ID b)) budgets) ->
  filter (same_key f) budgets = [] \/ exists b, filter (same_key f) budgets = [b].
Proof.
  induction budgets as [| x l IH]; intro Hnd; simpl.
  - left. reflexivity.
  - simpl in Hnd. inversion Hnd as [| ? ? Hx Hl]; subst.
    destruct (same_key f x) eqn:E.
    + right. exists x. f_equal. apply filter_nil_iff. intros y Hy.
      destruct (same_key f y) eqn:Ey; [| reflexivity].
      apply same_key_true in E, Ey. exfalso. apply Hx.
      rewrite E, <- Ey.
      apply (in_map (fun b => (b_MONTH b, b_VENDOR_ID b))). exact Hy.
    + apply IH. exact Hl.
Qed.

(** X15. When no two budget rows share a month and vendor, the variance
    table has exactly one row per finance row, in the finance frame's
    order, carrying that row's month, vendor, invoiced amount and dispute
    rate. *)
Theorem finance_summary_one_row_per_finance_row
    (finance : list FinanceRecord) (budgets : list BudgetRecord) :
  NoDup (map (fun b => (b_MONTH b, b_VENDOR_ID b)) budgets) ->
  map (fun row => (fs_MONTH row, fs_VENDOR_ID row, fs_INVOICED_USD row,
                   fs_DISPUTE_RATE row))
      (finance_summary finance budgets)
  = map (fun f => (f_MONTH f, f_VENDOR_ID f, f_INVOICED_USD f, f_DISPUTE_RATE f))
        finance.
Proof.
  intro Hnd. unfold finance_summary, merge_budgets.
  induction finance as [| f l IH]; [reflexivity |].
  cbn [flat_map]. rewrite !map_app.
  etransitivity; [apply f_equal; exact IH |].
  destruct (filter_same_key_NoDup f budgets Hnd) as [-> | [b ->]]; reflexivity.
Qed.

Lemma finance_summary_one_row_per_finance_row_witness :
  map (fun row => (fs_MONTH row, fs_VENDOR_ID row, fs_INVOICED_USD row,
                   fs_DISPUTE_RATE row))
      (finance_summary sample_finance
         [{| b_MONTH := "2024-01"; b_VENDOR_ID := "B";
             b_BUDGET_ALLOCATED_USD := Some 1000 |}])
  = map (fun f => (f_MONTH f, f_VENDOR_ID f, f_INVOICED_USD f, f_DISPUTE_RATE f))
        sample_finance.
Proof.
  apply finance_summary_one_row_per_finance_row.
  simpl. constructor; [intros [] | constructor].
Defined.

(** Two budget rows for one month and vendor give the finance row two
    rows in the table. *)
Example duplicated_budget_row_fans_out :
  map fs_VARIANCE_USD
    (finance_summary sample_finance
       [{| b_MONTH := "2024-01"; b_VENDOR_ID := "B";
           b_BUDGET_ALLOCATED_USD := Some 1000 |};
        {| b_MONTH := "2024-01"; b_VENDOR_ID := "B";
           b_BUDGET_ALLOCATED_USD := Some 900 |}])
  = [Some 200; Some 300].
Proof. reflexivity. Qed.

(* ------------------------------------------------------------------ *)
(** * Scores of the ranking, and where doubles differ *)


Module F64Facts.
Import PrimFloat.
Local Open Scope float_scope.




End F64Facts.
